(** * Tamper-detection fragment of the storage read command handler

    Shallow embedding of the two snippets [src/war.c] and [src/war.cpp].
    The snippet runs inside the handler of a read command: it checks the
    requested sector against a fixed range and raises the (persistent)
    [tamperdetected] flag, performs the legitimate read into the selected
    transfer buffer, and, when the flag is raised, wipes that buffer with
    0xFF, copies a fixed string over its start and, for sectors at or past
    48195, writes the buffer back to disk.

    Model:
    - integers ([sector], [count], [lun], [data_select], [last_result], the
      loop index [i] and the buffer-size macros) are [Z]; the fragment does
      no arithmetic on them beyond comparisons and the constant division
      [READ_BUFFER_SIZE/SECTOR_SIZE], written with C's truncating [Z.quot];
    - a transfer buffer ([unsigned char *]) is the memory it points to, a map
      from byte offsets to byte values;
    - [cur_cmd.data] is a map from buffer index to buffer;
    - the two external storage functions are a record of functions; the
      fragment records each call it makes, with its arguments and the
      contents of the buffer at the time of the call, in a call log. *)

From Stdlib Require Import ZArith List String Ascii Bool Lia.
Import ListNotations.
Open Scope Z_scope.

(** ** Data model *)

(** A buffer: the byte stored at each offset from the buffer pointer. *)
Definition buffer := Z -> Z.

(** [b[k] = v] *)
Definition buf_store (b : buffer) (k v : Z) : buffer :=
  fun j => if Z.eqb j k then v else b j.

(** The [cur_cmd] record. *)
Record command := mk_command {
  sector : Z;
  count : Z;
  lun : Z;
  data_select : Z;
  data : Z -> buffer;
  last_result : Z
}.

(** [cur_cmd.data[cur_cmd.data_select]] *)
Definition sel_buf (c : command) : buffer := data c (data_select c).

(** Replace the selected buffer's contents. *)
Definition store_sel_buf (c : command) (b : buffer) : command :=
  {| sector := sector c; count := count c; lun := lun c;
     data_select := data_select c;
     data := fun k => if Z.eqb k (data_select c) then b else data c k;
     last_result := last_result c |}.

(** [cur_cmd.last_result = r] *)
Definition set_last_result (c : command) (r : Z) : command :=
  {| sector := sector c; count := count c; lun := lun c;
     data_select := data_select c; data := data c; last_result := r |}.

(** One call to an external storage function: logical unit, sector, sector
    count, index of the buffer passed, and that buffer's contents when the
    call is made. *)
Inductive event :=
| ReadSectors (l sec n sel : Z) (contents : buffer)
| WriteSectors (l sec n sel : Z) (contents : buffer).

(** The external functions [storage_read_sectors] (fills the buffer it is
    given and returns a result code) and [storage_write_sectors] (returns a
    result code). *)
Record storage := mk_storage {
  storage_read_sectors : Z -> Z -> Z -> buffer -> Z * buffer;
  storage_write_sectors : Z -> Z -> Z -> buffer -> Z
}.

(** The variables the fragment reads and writes, and the log of the storage
    calls made so far. *)
Record state := mk_state {
  cur_cmd : command;
  tamperdetected : bool;
  i : Z;
  calls : list event
}.

Definition set_cmd (s : state) (c : command) : state :=
  {| cur_cmd := c; tamperdetected := tamperdetected s; i := i s;
     calls := calls s |}.

Definition add_call (s : state) (e : event) : state :=
  {| cur_cmd := cur_cmd s; tamperdetected := tamperdetected s; i := i s;
     calls := calls s ++ [e] |}.

(** ** Macros and library functions used by the fragment *)

(** [MIN] is not defined in src/; it is the customary
    [#define MIN(a,b) ((a)<(b)?(a):(b))]. *)
Definition MIN (a b : Z) : Z := if a <? b then a else b.

(** Modelled from the spec: [IF_MD2] is not defined in src/.  Section 6 of
    the spec says that both storage functions take a logical unit
    identifier, so [IF_MD2(cur_cmd.lun,)] passes [cur_cmd.lun]. *)
Definition IF_MD2 (l : Z) : Z := l.

(** [strcpy(dst + k, src)]: the characters of [src], then the NUL. *)
Fixpoint strcpy (dst : buffer) (k : Z) (src : string) : buffer :=
  match src with
  | EmptyString => buf_store dst k 0
  | String ch rest =>
      strcpy (buf_store dst k (Z.of_nat (nat_of_ascii ch))) (k + 1) rest
  end.

(** The fixed string copied over the wiped buffer. *)
Definition clobber_msg : string := "Never gonna let you down.".

(** ** The fragment of [src/war.c] *)

Module WarC.
Section Fragment.

Variables READ_BUFFER_SIZE WRITE_BUFFER_SIZE SECTOR_SIZE : Z.
Variable st : storage.

(** Lines 3-4:
    [if(cur_cmd.sector>=10000 && cur_cmd.sector<48000) tamperdetected=true;] *)
Definition range_check (s : state) : state :=
  if (10000 <=? sector (cur_cmd s)) && (sector (cur_cmd s) <? 48000)
  then {| cur_cmd := cur_cmd s; tamperdetected := true; i := i s;
          calls := calls s |}
  else s.

(** Lines 7-11: [cur_cmd.last_result = storage_read_sectors(
      IF_MD2(cur_cmd.lun,) cur_cmd.sector,
      MIN(READ_BUFFER_SIZE/SECTOR_SIZE, cur_cmd.count),
      cur_cmd.data[cur_cmd.data_select]);] *)
Definition legit_read (s : state) : state :=
  let c := cur_cmd s in
  let n := MIN (Z.quot READ_BUFFER_SIZE SECTOR_SIZE) (count c) in
  let '(r, b) :=
    storage_read_sectors st (IF_MD2 (lun c)) (sector c) n (sel_buf c) in
  let s1 := add_call s (ReadSectors (IF_MD2 (lun c)) (sector c) n
                          (data_select c) (sel_buf c)) in
  set_cmd s1 (set_last_result (store_sel_buf c b) r).

(** Lines 15-16: [for(i=0;i<READ_BUFFER_SIZE;i++)
      cur_cmd.data[cur_cmd.data_select][i]=0xFF;]
    run from a given [i]; the fuel [Z.to_nat READ_BUFFER_SIZE] is the
    number of iterations from [i = 0].  Returns the final [i] and buffer. *)
Fixpoint wipe_loop (fuel : nat) (i0 : Z) (b : buffer) : Z * buffer :=
  match fuel with
  | O => (i0, b)
  | S fuel' =>
      if i0 <? READ_BUFFER_SIZE
      then wipe_loop fuel' (i0 + 1) (buf_store b i0 255)
      else (i0, b)
  end.

(** Lines 13-28: the [if(tamperdetected){ ... }] block. *)
Definition tamper_block (s : state) : state :=
  if tamperdetected s then
    let c := cur_cmd s in
    let '(i1, b1) := wipe_loop (Z.to_nat READ_BUFFER_SIZE) 0 (sel_buf c) in
    let b2 := strcpy b1 0 clobber_msg in
    let c2 := store_sel_buf c b2 in
    let s2 := {| cur_cmd := c2; tamperdetected := tamperdetected s;
                 i := i1; calls := calls s |} in
    if 48195 <=? sector c2 then
      let n := MIN (Z.quot WRITE_BUFFER_SIZE SECTOR_SIZE) (count c2) in
      let _ := storage_write_sectors st (IF_MD2 (lun c2)) (sector c2) n
                 (sel_buf c2) in
      add_call s2 (WriteSectors (IF_MD2 (lun c2)) (sector c2) n
                     (data_select c2) (sel_buf c2))
    else s2
  else s.

(** The whole snippet. *)
Definition fragment (s : state) : state :=
  tamper_block (legit_read (range_check s)).

End Fragment.
End WarC.

(** ** The fragment of [src/war.cpp] *)

Module WarCpp.
Section Fragment.

Variables READ_BUFFER_SIZE WRITE_BUFFER_SIZE SECTOR_SIZE : Z.
Variable st : storage.

(** Lines 3-4:
    [if(cur_cmd.sector>=10000 && cur_cmd.sector<48000) tamperdetected=true;] *)
Definition range_check (s : state) : state :=
  if (10000 <=? sector (cur_cmd s)) && (sector (cur_cmd s) <? 48000)
  then {| cur_cmd := cur_cmd s; tamperdetected := true; i := i s;
          calls := calls s |}
  else s.

(** Lines 7-11: the legitimate read, its result stored in
    [cur_cmd.last_result]. *)
Definition legit_read (s : state) : state :=
  let c := cur_cmd s in
  let n := MIN (Z.quot READ_BUFFER_SIZE SECTOR_SIZE) (count c) in
  let '(r, b) :=
    storage_read_sectors st (IF_MD2 (lun c)) (sector c) n (sel_buf c) in
  let s1 := add_call s (ReadSectors (IF_MD2 (lun c)) (sector c) n
                          (data_select c) (sel_buf c)) in
  set_cmd s1 (set_last_result (store_sel_buf c b) r).

(** Lines 15-16: the 0xFF wipe loop. *)
Fixpoint wipe_loop (fuel : nat) (i0 : Z) (b : buffer) : Z * buffer :=
  match fuel with
  | O => (i0, b)
  | S fuel' =>
      if i0 <? READ_BUFFER_SIZE
      then wipe_loop fuel' (i0 + 1) (buf_store b i0 255)
      else (i0, b)
  end.

(** Lines 14-30: the [if(tamperdetected){ ... }] block. *)
Definition tamper_block (s : state) : state :=
  if tamperdetected s then
    let c := cur_cmd s in
    let '(i1, b1) := wipe_loop (Z.to_nat READ_BUFFER_SIZE) 0 (sel_buf c) in
    let b2 := strcpy b1 0 clobber_msg in
    let c2 := store_sel_buf c b2 in
    let s2 := {| cur_cmd := c2; tamperdetected := tamperdetected s;
                 i := i1; calls := calls s |} in
    if 48195 <=? sector c2 then
      let n := MIN (Z.quot WRITE_BUFFER_SIZE SECTOR_SIZE) (count c2) in
      let _ := storage_write_sectors st (IF_MD2 (lun c2)) (sector c2) n
                 (sel_buf c2) in
      add_call s2 (WriteSectors (IF_MD2 (lun c2)) (sector c2) n
                     (data_select c2) (sel_buf c2))
    else s2
  else s.

(** The whole snippet. *)
Definition fragment (s : state) : state :=
  tamper_block (legit_read (range_check s)).

End Fragment.
End WarCpp.

(** The buffer the [if(tamperdetected)] block leaves behind: the wipe loop,
    then the [strcpy]. *)
Definition wiped (READ_BUFFER_SIZE : Z) (b : buffer) : buffer :=
  strcpy (snd (WarC.wipe_loop READ_BUFFER_SIZE (Z.to_nat READ_BUFFER_SIZE) 0 b))
    0 clobber_msg.

(** ** Sample inputs *)

(** A storage back end whose read fills the buffer with 7 and returns 0. *)
Definition sample_storage : storage :=
  mk_storage (fun _ _ _ _ => (0, fun _ => 7)) (fun _ _ _ _ => 0).

(** A read of 4 sectors at [sec] into buffer 1 of zeroed buffers. *)
Definition sample_state (sec : Z) (t : bool) : state :=
  mk_state (mk_command sec 4 0 1 (fun _ _ => 0) (-1)) t 0 [].

(** ** Observations on the call log and the expected buffer image *)

Definition is_read (e : event) : bool :=
  match e with ReadSectors _ _ _ _ _ => true | WriteSectors _ _ _ _ _ => false end.

Definition is_write (e : event) : bool :=
  match e with WriteSectors _ _ _ _ _ => true | ReadSectors _ _ _ _ _ => false end.

(** The storage calls logged between state [before] and state [after]. *)
Definition new_calls (before after : state) : list event :=
  skipn (List.length (calls before)) (calls after).

(** Byte [n] of a C string: its [n]-th character, or 0 (the NUL) past it. *)
Definition str_code (str : string) (n : nat) : Z :=
  match String.get n str with
  | Some ch => Z.of_nat (nat_of_ascii ch)
  | None => 0
  end.

(** The buffer the claim describes after the wipe: the fixed string, its
    terminating NUL, then 0xFF bytes. *)
Definition clobbered_image (j : Z) : Z :=
  match String.get (Z.to_nat j) clobber_msg with
  | Some ch => Z.of_nat (nat_of_ascii ch)
  | None => if j =? Z.of_nat (String.length clobber_msg) then 0 else 255
  end.

(** ** Lemmas on the building blocks *)

Lemma skipn_length_app {A} (l1 l2 : list A) :
  skipn (List.length l1) (l1 ++ l2) = l2.
Proof. induction l1 as [|x l1 IH]; simpl; auto. Qed.

Lemma get_None_iff (str : string) (n : nat) :
  String.get n str = None <-> (String.length str <= n)%nat.
Proof.
  revert n; induction str as [|ch str IH]; intros [|n]; simpl.
  - split; auto with arith.
  - split; auto with arith.
  - split; [discriminate | lia].
  - rewrite IH; lia.
Qed.

Lemma strcpy_byte (str : string) : forall (dst : buffer) (k j : Z),
  strcpy dst k str j =
  if (k <=? j) && (j <=? k + Z.of_nat (String.length str))
  then str_code str (Z.to_nat (j - k)) else dst j.
Proof.
  induction str as [|ch str IH]; intros dst k j.
  - cbn [strcpy String.length]. unfold buf_store, str_code.
    destruct (Z.eqb_spec j k) as [->|Hne].
    + rewrite Z.leb_refl, Z.add_0_r, Z.leb_refl, Z.sub_diag. reflexivity.
    + destruct (k <=? j) eqn:E1, (j <=? k + Z.of_nat 0) eqn:E2; simpl; auto.
      apply Z.leb_le in E1; apply Z.leb_le in E2; lia.
  - cbn [strcpy String.length]. rewrite IH. unfold buf_store.
    rewrite Nat2Z.inj_succ.
    destruct (k + 1 <=? j) eqn:E1,
             (j <=? k + 1 + Z.of_nat (String.length str)) eqn:E2,
             (Z.eqb_spec j k) as [->|Hne]; simpl;
      rewrite ?Z.leb_le in E1; rewrite ?Z.leb_le in E2;
      rewrite ?Z.leb_gt in E1; rewrite ?Z.leb_gt in E2; try lia.
    + replace (k <=? j) with true by (symmetry; apply Z.leb_le; lia).
      replace (j <=? k + Z.succ (Z.of_nat (String.length str))) with true
        by (symmetry; apply Z.leb_le; lia).
      simpl. unfold str_code.
      replace (Z.to_nat (j - k)) with (S (Z.to_nat (j - (k + 1)))) by lia.
      reflexivity.
    + replace (j <=? k + Z.succ (Z.of_nat (String.length str))) with false
        by (symmetry; apply Z.leb_gt; lia).
      rewrite andb_false_r. reflexivity.
    + rewrite Z.leb_refl, Z.sub_diag.
      replace (k <=? k + Z.succ (Z.of_nat (String.length str))) with true
        by (symmetry; apply Z.leb_le; lia).
      reflexivity.
    + replace (k <=? j) with false by (symmetry; apply Z.leb_gt; lia).
      reflexivity.
Qed.

Section FragmentFacts.

Variables READ_BUFFER_SIZE WRITE_BUFFER_SIZE SECTOR_SIZE : Z.
Variable st : storage.

Lemma sel_buf_store (c : command) (b : buffer) :
  sel_buf (store_sel_buf c b) = b.
Proof. unfold sel_buf, store_sel_buf; simpl. rewrite Z.eqb_refl. reflexivity. Qed.

Lemma wipe_loop_byte (n : nat) : forall (i0 : Z) (b : buffer) (j : Z),
  i0 + Z.of_nat n <= READ_BUFFER_SIZE ->
  snd (WarC.wipe_loop READ_BUFFER_SIZE n i0 b) j =
  if (i0 <=? j) && (j <? i0 + Z.of_nat n) then 255 else b j.
Proof.
  induction n as [|n IH]; intros i0 b j Hn; simpl.
  - destruct (i0 <=? j) eqn:E1, (j <? i0 + 0) eqn:E2; simpl; auto.
    apply Z.leb_le in E1; apply Z.ltb_lt in E2; lia.
  - replace (i0 <? READ_BUFFER_SIZE) with true by (symmetry; apply Z.ltb_lt; lia).
    rewrite IH by lia. unfold buf_store.
    destruct (Z.eqb_spec j i0) as [->|Hne].
    + replace (i0 + 1 <=? i0) with false by (symmetry; apply Z.leb_gt; lia).
      rewrite Z.leb_refl.
      replace (i0 <? i0 + Z.pos (Pos.of_succ_nat n)) with true
        by (symmetry; apply Z.ltb_lt; lia).
      reflexivity.
    + destruct (i0 + 1 <=? j) eqn:E1, (j <? i0 + 1 + Z.of_nat n) eqn:E2;
        rewrite ?Z.leb_le, ?Z.leb_gt in E1; rewrite ?Z.ltb_lt, ?Z.ltb_ge in E2;
        simpl.
      * replace (i0 <=? j) with true by (symmetry; apply Z.leb_le; lia).
        replace (j <? i0 + Z.pos (Pos.of_succ_nat n)) with true
          by (symmetry; apply Z.ltb_lt; lia).
        reflexivity.
      * replace (j <? i0 + Z.pos (Pos.of_succ_nat n)) with false
          by (symmetry; apply Z.ltb_ge; lia).
        rewrite andb_false_r. reflexivity.
      * replace (i0 <=? j) with false by (symmetry; apply Z.leb_gt; lia).
        reflexivity.
      * replace (i0 <=? j) with false by (symmetry; apply Z.leb_gt; lia).
        reflexivity.
Qed.

(** The loop as the fragment runs it, from [i = 0]. *)
Lemma wipe_loop_from_0 (b : buffer) (j : Z) :
  snd (WarC.wipe_loop READ_BUFFER_SIZE (Z.to_nat READ_BUFFER_SIZE) 0 b) j =
  if (0 <=? j) && (j <? READ_BUFFER_SIZE) then 255 else b j.
Proof.
  destruct (Z.le_gt_cases 0 READ_BUFFER_SIZE) as [Hle|Hgt].
  - rewrite wipe_loop_byte by lia. rewrite Z2Nat.id by lia. reflexivity.
  - replace (Z.to_nat READ_BUFFER_SIZE) with O by lia. simpl.
    destruct (0 <=? j) eqn:E1, (j <? READ_BUFFER_SIZE) eqn:E2; simpl; auto.
    apply Z.leb_le in E1; apply Z.ltb_lt in E2; lia.
Qed.

Lemma wipe_loop_index (n : nat) : forall (i0 : Z) (b : buffer),
  i0 + Z.of_nat n <= READ_BUFFER_SIZE ->
  fst (WarC.wipe_loop READ_BUFFER_SIZE n i0 b) = i0 + Z.of_nat n.
Proof.
  induction n as [|n IH]; intros i0 b Hn; simpl.
  - lia.
  - replace (i0 <? READ_BUFFER_SIZE) with true by (symmetry; apply Z.ltb_lt; lia).
    rewrite IH by lia. lia.
Qed.

(** The loop as the fragment runs it exits with [i = READ_BUFFER_SIZE], or
    [i = 0] when the size is not positive. *)
Lemma wipe_loop_index_from_0 (b : buffer) :
  fst (WarC.wipe_loop READ_BUFFER_SIZE (Z.to_nat READ_BUFFER_SIZE) 0 b) =
  Z.max 0 READ_BUFFER_SIZE.
Proof.
  destruct (Z.le_gt_cases 0 READ_BUFFER_SIZE) as [Hle|Hgt].
  - rewrite wipe_loop_index by lia. lia.
  - replace (Z.to_nat READ_BUFFER_SIZE) with O by lia. simpl. lia.
Qed.

Lemma range_check_eq (s : state) :
  WarC.range_check s =
  {| cur_cmd := cur_cmd s;
     tamperdetected :=
       ((10000 <=? sector (cur_cmd s)) && (sector (cur_cmd s) <? 48000))
       || tamperdetected s;
     i := i s; calls := calls s |}.
Proof.
  unfold WarC.range_check.
  destruct s as [c t i0 l]; simpl.
  destruct ((10000 <=? sector c) && (sector c <? 48000)); reflexivity.
Qed.

Lemma legit_read_eq (s : state) (r : Z) (b : buffer) :
  storage_read_sectors st (IF_MD2 (lun (cur_cmd s))) (sector (cur_cmd s))
    (MIN (Z.quot READ_BUFFER_SIZE SECTOR_SIZE) (count (cur_cmd s)))
    (sel_buf (cur_cmd s)) = (r, b) ->
  WarC.legit_read READ_BUFFER_SIZE SECTOR_SIZE st s =
  {| cur_cmd := set_last_result (store_sel_buf (cur_cmd s) b) r;
     tamperdetected := tamperdetected s; i := i s;
     calls := calls s ++
       [ReadSectors (IF_MD2 (lun (cur_cmd s))) (sector (cur_cmd s))
          (MIN (Z.quot READ_BUFFER_SIZE SECTOR_SIZE) (count (cur_cmd s)))
          (data_select (cur_cmd s)) (sel_buf (cur_cmd s))] |}.
Proof. intros H. unfold WarC.legit_read. rewrite H. reflexivity. Qed.

Lemma tamper_block_off (s : state) :
  tamperdetected s = false ->
  WarC.tamper_block READ_BUFFER_SIZE WRITE_BUFFER_SIZE SECTOR_SIZE st s = s.
Proof. intros H. unfold WarC.tamper_block. rewrite H. reflexivity. Qed.

Lemma tamper_block_on (s : state) :
  tamperdetected s = true ->
  WarC.tamper_block READ_BUFFER_SIZE WRITE_BUFFER_SIZE SECTOR_SIZE st s =
  {| cur_cmd := store_sel_buf (cur_cmd s) (wiped READ_BUFFER_SIZE (sel_buf (cur_cmd s)));
     tamperdetected := true;
     i := fst (WarC.wipe_loop READ_BUFFER_SIZE (Z.to_nat READ_BUFFER_SIZE) 0
                 (sel_buf (cur_cmd s)));
     calls := calls s ++
       (if 48195 <=? sector (cur_cmd s)
        then [WriteSectors (IF_MD2 (lun (cur_cmd s))) (sector (cur_cmd s))
                (MIN (Z.quot WRITE_BUFFER_SIZE SECTOR_SIZE) (count (cur_cmd s)))
                (data_select (cur_cmd s)) (wiped READ_BUFFER_SIZE (sel_buf (cur_cmd s)))]
        else []) |}.
Proof.
  intros H. unfold WarC.tamper_block, wiped. rewrite H.
  destruct (WarC.wipe_loop READ_BUFFER_SIZE (Z.to_nat READ_BUFFER_SIZE) 0
              (sel_buf (cur_cmd s))) as [i1 b1]; simpl.
  destruct (48195 <=? sector (cur_cmd s)).
  - unfold add_call, sel_buf, store_sel_buf; simpl. rewrite Z.eqb_refl. reflexivity.
  - rewrite app_nil_r. reflexivity.
Qed.

End FragmentFacts.

(** ** Claims *)

Section Claims.

Variables READ_BUFFER_SIZE WRITE_BUFFER_SIZE SECTOR_SIZE : Z.
Variable st : storage.

Local Abbreviation frag :=
  (WarC.fragment READ_BUFFER_SIZE WRITE_BUFFER_SIZE SECTOR_SIZE st).

Local Abbreviation read_result s :=
  (storage_read_sectors st (IF_MD2 (lun (cur_cmd s))) (sector (cur_cmd s))
     (MIN (Z.quot READ_BUFFER_SIZE SECTOR_SIZE) (count (cur_cmd s)))
     (sel_buf (cur_cmd s))).

Lemma MIN_le_l (a b : Z) : MIN a b <= a.
Proof. unfold MIN. destruct (Z.ltb_spec a b); lia. Qed.

Lemma new_calls_app (s : state) (c : command) (t : bool) (i0 : Z)
    (l : list event) :
  new_calls s {| cur_cmd := c; tamperdetected := t; i := i0;
                 calls := calls s ++ l |} = l.
Proof. unfold new_calls; simpl. apply skipn_length_app. Qed.

(** Runs the three steps of the fragment symbolically: the range check, the
    read (whose result is named [r], [b]) and the [if(tamperdetected)] block,
    split on the flag. *)
Ltac run_fragment s r b Hr Ht :=
  unfold WarC.fragment; rewrite range_check_eq; cbn [tamperdetected];
  destruct (read_result s) as [r b] eqn:Hr;
  erewrite (legit_read_eq READ_BUFFER_SIZE SECTOR_SIZE st _ r b) by exact Hr;
  destruct (((10000 <=? sector (cur_cmd s)) && (sector (cur_cmd s) <? 48000))
            || tamperdetected s) eqn:Ht;
  [ rewrite tamper_block_on by reflexivity
  | rewrite tamper_block_off by reflexivity ];
  cbn [cur_cmd tamperdetected i calls sel_buf store_sel_buf set_last_result
       sector count lun data_select data last_result].

(** C1: when [cur_cmd.sector] lies in [10000, 48000) the fragment leaves
    [tamperdetected] true; for any other sector it does not set the flag,
    which keeps the value it had on entry. *)
Theorem tamper_flag_range (s : state) :
  (10000 <= sector (cur_cmd s) < 48000 -> tamperdetected (frag s) = true) /\
  (~ (10000 <= sector (cur_cmd s) < 48000) ->
   tamperdetected (frag s) = tamperdetected s).
Proof.
  run_fragment s r b Hr Ht; split; intros Hrange; auto.
  - apply orb_true_iff in Ht as [Hc|Hc]; auto.
    apply andb_true_iff in Hc as [Hc1 Hc2].
    apply Z.leb_le in Hc1; apply Z.ltb_lt in Hc2; lia.
  - apply orb_false_iff in Ht as [Hc _].
    apply andb_false_iff in Hc as [Hc|Hc];
      [apply Z.leb_gt in Hc | apply Z.ltb_ge in Hc]; lia.
  - apply orb_false_iff in Ht as [_ Ht]. auto.
Qed.

(** C2: when [tamperdetected] holds after the range check, every byte of
    the selected buffer below [READ_BUFFER_SIZE] ends up as the fixed string
    "Never gonna let you down.", its terminating NUL, then 0xFF. *)
Theorem clobber_buffer (s : state)
    (Htamper : tamperdetected (WarC.range_check s) = true) :
  forall j, 0 <= j < READ_BUFFER_SIZE ->
  sel_buf (cur_cmd (frag s)) j = clobbered_image j.
Proof.
  rewrite range_check_eq in Htamper; cbn [tamperdetected] in Htamper.
  run_fragment s r b Hr Ht; [|congruence].
  intros j Hj. rewrite Z.eqb_refl. unfold wiped.
  rewrite strcpy_byte, wipe_loop_from_0.
  change (String.length clobber_msg) with 25%nat.
  unfold clobbered_image, str_code. rewrite Z.sub_0_r.
  destruct (String.get (Z.to_nat j) clobber_msg) eqn:E.
  - assert (Hlt : (Z.to_nat j < 25)%nat).
    { destruct (Nat.lt_ge_cases (Z.to_nat j) 25) as [H|H]; auto.
      assert (Hn : String.get (Z.to_nat j) clobber_msg = None)
        by (apply get_None_iff; exact H).
      congruence. }
    replace ((0 <=? j) && (j <=? 0 + Z.of_nat 25)) with true
      by (symmetry; apply andb_true_iff; split; [apply Z.leb_le | apply Z.leb_le]; lia).
    reflexivity.
  - apply get_None_iff in E. change (String.length clobber_msg) with 25%nat in E.
    destruct (Z.eq_dec j 25) as [->|Hne].
    + reflexivity.
    + replace ((0 <=? j) && (j <=? 0 + Z.of_nat 25)) with false
        by (symmetry; apply andb_false_iff; right; apply Z.leb_gt; lia).
      replace ((0 <=? j) && (j <? READ_BUFFER_SIZE)) with true
        by (symmetry; apply andb_true_iff; split; [apply Z.leb_le | apply Z.ltb_lt]; lia).
      change (String.length clobber_msg) with 25%nat.
      replace (j =? Z.of_nat 25) with false by (symmetry; apply Z.eqb_neq; lia).
      reflexivity.
Qed.

(** C3: the fragment issues [storage_write_sectors] exactly when
    [tamperdetected] holds after the range check and [cur_cmd.sector] is at
    least 48195; the call writes the clobbered selected buffer at
    [cur_cmd.sector].  Otherwise no write is issued. *)
Theorem write_back_iff (s : state) :
  filter is_write (new_calls s (frag s)) =
  if tamperdetected (WarC.range_check s) && (48195 <=? sector (cur_cmd s))
  then [WriteSectors (IF_MD2 (lun (cur_cmd s))) (sector (cur_cmd s))
          (MIN (Z.quot WRITE_BUFFER_SIZE SECTOR_SIZE) (count (cur_cmd s)))
          (data_select (cur_cmd s)) (sel_buf (cur_cmd (frag s)))]
  else [].
Proof.
  run_fragment s r b Hr Ht.
  - rewrite <- app_assoc, new_calls_app. rewrite Z.eqb_refl.
    destruct (48195 <=? sector (cur_cmd s)); reflexivity.
  - rewrite new_calls_app. reflexivity.
Qed.

(** C4: if [tamperdetected] is false on entry, no [storage_write_sectors]
    call is issued, whatever the sector: the flag is raised only below
    48000 and the write-back needs 48195 or more. *)
Theorem no_write_if_flag_clear (s : state)
    (Hoff : tamperdetected s = false) :
  filter is_write (new_calls s (frag s)) = [].
Proof.
  run_fragment s r b Hr Ht.
  - rewrite <- app_assoc, new_calls_app.
    rewrite Hoff, orb_false_r in Ht.
    apply andb_true_iff in Ht as [_ Hlt]. apply Z.ltb_lt in Hlt.
    replace (48195 <=? sector (cur_cmd s)) with false
      by (symmetry; apply Z.leb_gt; lia).
    reflexivity.
  - rewrite new_calls_app. reflexivity.
Qed.

(** C5: the fragment calls [storage_read_sectors] exactly once, as its
    first storage call, with the lun, [cur_cmd.sector], the clamped count
    and the selected buffer, whose contents are still those on entry (no
    wipe has happened yet). *)
Theorem single_read_first (s : state) :
  exists rest,
    new_calls s (frag s) =
    ReadSectors (IF_MD2 (lun (cur_cmd s))) (sector (cur_cmd s))
      (MIN (Z.quot READ_BUFFER_SIZE SECTOR_SIZE) (count (cur_cmd s)))
      (data_select (cur_cmd s)) (sel_buf (cur_cmd s)) :: rest /\
    filter is_read rest = [].
Proof.
  run_fragment s r b Hr Ht.
  - rewrite <- app_assoc, new_calls_app. eexists; split; [reflexivity|].
    destruct (48195 <=? sector (cur_cmd s)); reflexivity.
  - rewrite new_calls_app. eexists; split; reflexivity.
Qed.

(** C6: after the fragment, [cur_cmd.last_result] is the result code of
    [storage_read_sectors]; the write-back's result is discarded. *)
Theorem last_result_from_read (s : state) :
  last_result (cur_cmd (frag s)) = fst (read_result s).
Proof. run_fragment s r b Hr Ht; reflexivity. Qed.

(** C7: the embeddings of [src/war.c] and [src/war.cpp] compute the same
    final state (flag, buffers, [last_result], loop index and storage calls)
    for every command state and every behaviour of the storage functions. *)
Theorem war_c_cpp_agree (s : state) :
  WarC.fragment READ_BUFFER_SIZE WRITE_BUFFER_SIZE SECTOR_SIZE st s =
  WarCpp.fragment READ_BUFFER_SIZE WRITE_BUFFER_SIZE SECTOR_SIZE st s.
Proof. reflexivity. Qed.

(** C8: when [tamperdetected] does not hold after the range check, the
    fragment only performs the read and stores its result: the selected
    buffer holds what the read produced, and no wipe, copy or write-back
    happens. *)
Theorem flag_clear_only_read (s : state)
    (Hoff : tamperdetected (WarC.range_check s) = false) :
  frag s =
  {| cur_cmd := set_last_result
                  (store_sel_buf (cur_cmd s) (snd (read_result s)))
                  (fst (read_result s));
     tamperdetected := false;
     i := i s;
     calls := calls s ++
       [ReadSectors (IF_MD2 (lun (cur_cmd s))) (sector (cur_cmd s))
          (MIN (Z.quot READ_BUFFER_SIZE SECTOR_SIZE) (count (cur_cmd s)))
          (data_select (cur_cmd s)) (sel_buf (cur_cmd s))] |}.
Proof.
  rewrite range_check_eq in Hoff; cbn [tamperdetected] in Hoff.
  run_fragment s r b Hr Ht; [congruence|]. reflexivity.
Qed.

(** C9: the count passed to [storage_read_sectors] is at most
    [READ_BUFFER_SIZE/SECTOR_SIZE] and the count passed to
    [storage_write_sectors] at most [WRITE_BUFFER_SIZE/SECTOR_SIZE], for
    every [cur_cmd.count]. *)
Theorem sector_counts_clamped (s : state) :
  Forall (fun e => match e with
                   | ReadSectors _ _ n _ _ => n <= Z.quot READ_BUFFER_SIZE SECTOR_SIZE
                   | WriteSectors _ _ n _ _ => n <= Z.quot WRITE_BUFFER_SIZE SECTOR_SIZE
                   end)
         (new_calls s (frag s)).
Proof.
  run_fragment s r b Hr Ht.
  - rewrite <- app_assoc, new_calls_app.
    constructor; [apply MIN_le_l|].
    destruct (48195 <=? sector (cur_cmd s)); repeat constructor.
    apply MIN_le_l.
  - rewrite new_calls_app. repeat constructor. apply MIN_le_l.
Qed.

(** C10: the fragment leaves [cur_cmd.sector], [cur_cmd.count],
    [cur_cmd.data_select] and [cur_cmd.lun] unchanged, and every buffer other
    than the selected one as well. *)
Theorem command_frame (s : state) :
  sector (cur_cmd (frag s)) = sector (cur_cmd s) /\
  count (cur_cmd (frag s)) = count (cur_cmd s) /\
  data_select (cur_cmd (frag s)) = data_select (cur_cmd s) /\
  lun (cur_cmd (frag s)) = lun (cur_cmd s) /\
  (forall k, k <> data_select (cur_cmd s) ->
   data (cur_cmd (frag s)) k = data (cur_cmd s) k).
Proof.
  run_fragment s r b Hr Ht; repeat split; intros k Hk;
    destruct (Z.eqb_spec k (data_select (cur_cmd s))); congruence.
Qed.

(** ** Further properties of the fragment *)

(** The whole selected buffer after the [if(tamperdetected)] block, for any
    [READ_BUFFER_SIZE]: offsets 0-25 hold the string and its NUL (written by
    [strcpy] even past a shorter buffer), the rest of [0, READ_BUFFER_SIZE)
    holds 0xFF, and every other offset keeps what the read left there. *)
Theorem tamper_buffer_all_offsets (s : state)
    (Htamper : tamperdetected (WarC.range_check s) = true) (j : Z) :
  sel_buf (cur_cmd (frag s)) j =
  if (0 <=? j) && (j <=? 25) then clobbered_image j
  else if (0 <=? j) && (j <? READ_BUFFER_SIZE) then 255
  else snd (read_result s) j.
Proof.
  rewrite range_check_eq in Htamper; cbn [tamperdetected] in Htamper.
  run_fragment s r b Hr Ht; [|congruence].
  cbn [snd]. rewrite Z.eqb_refl. unfold wiped.
  rewrite strcpy_byte, wipe_loop_from_0.
  change (String.length clobber_msg) with 25%nat.
  change (0 + Z.of_nat 25) with 25. rewrite Z.sub_0_r.
  destruct ((0 <=? j) && (j <=? 25)) eqn:E; [|reflexivity].
  apply andb_true_iff in E as [E1 E2]. apply Z.leb_le in E1; apply Z.leb_le in E2.
  unfold clobbered_image, str_code.
  destruct (String.get (Z.to_nat j) clobber_msg) eqn:G; [reflexivity|].
  apply get_None_iff in G. change (String.length clobber_msg) with 25%nat in G.
  change (String.length clobber_msg) with 25%nat.
  replace (j =? Z.of_nat 25) with true by (symmetry; apply Z.eqb_eq; lia).
  reflexivity.
Qed.

(** The loop index [i]: when the block runs, the wipe loop leaves it at
    [READ_BUFFER_SIZE] (0 for a non-positive size); otherwise the fragment
    does not touch it. *)
Theorem loop_index_after (s : state) :
  i (frag s) =
  if tamperdetected (WarC.range_check s) then Z.max 0 READ_BUFFER_SIZE
  else i s.
Proof.
  run_fragment s r b Hr Ht.
  - apply wipe_loop_index_from_0.
  - reflexivity.
Qed.


End Claims.

(** ** Concrete runs (READ_BUFFER_SIZE = WRITE_BUFFER_SIZE = 64,
    SECTOR_SIZE = 16) *)

Example run_in_range_bytes :
  map (sel_buf (cur_cmd (WarC.fragment 64 64 16 sample_storage
                           (sample_state 20000 false))))
      [0; 1; 24; 25; 26; 63; 64] = [78; 101; 46; 0; 255; 255; 7].
Proof. vm_compute. reflexivity. Qed.

Example run_in_range_calls :
  map is_write (calls (WarC.fragment 64 64 16 sample_storage
                         (sample_state 20000 false))) = [false].
Proof. vm_compute. reflexivity. Qed.

Example run_write_back_calls :
  map is_write (calls (WarC.fragment 64 64 16 sample_storage
                         (sample_state 50000 true))) = [false; true].
Proof. vm_compute. reflexivity. Qed.

Example run_outside_range :
  tamperdetected (WarC.fragment 64 64 16 sample_storage
                    (sample_state 50000 false)) = false /\
  sel_buf (cur_cmd (WarC.fragment 64 64 16 sample_storage
                      (sample_state 50000 false))) 0 = 7 /\
  last_result (cur_cmd (WarC.fragment 64 64 16 sample_storage
                          (sample_state 50000 false))) = 0.
Proof. vm_compute. repeat split. Qed.

(** ** Witnesses *)

Lemma clobber_buffer_witness :
  tamperdetected (WarC.range_check (sample_state 20000 false)) = true /\
  (forall j, 0 <= j < 64 ->
   sel_buf (cur_cmd (WarC.fragment 64 64 16 sample_storage
                       (sample_state 20000 false))) j = clobbered_image j).
Proof.
  split; [reflexivity|].
  exact (clobber_buffer 64 64 16 sample_storage (sample_state 20000 false)
           eq_refl).
Defined.

Lemma no_write_if_flag_clear_witness :
  tamperdetected (sample_state 50000 false) = false /\
  filter is_write (new_calls (sample_state 50000 false)
                     (WarC.fragment 64 64 16 sample_storage
                        (sample_state 50000 false))) = [].
Proof.
  split; [reflexivity|].
  exact (no_write_if_flag_clear 64 64 16 sample_storage
           (sample_state 50000 false) eq_refl).
Defined.

Lemma flag_clear_only_read_witness :
  tamperdetected (WarC.range_check (sample_state 5000 false)) = false /\
  WarC.fragment 64 64 16 sample_storage (sample_state 5000 false) =
  {| cur_cmd := set_last_result
                  (store_sel_buf (cur_cmd (sample_state 5000 false)) (fun _ => 7)) 0;
     tamperdetected := false; i := 0;
     calls := [ReadSectors 0 5000 4 1 (fun _ => 0)] |}.
Proof.
  split; [reflexivity|].
  exact (flag_clear_only_read 64 64 16 sample_storage
           (sample_state 5000 false) eq_refl).
Defined.

Lemma tamper_buffer_all_offsets_witness :
  tamperdetected (WarC.range_check (sample_state 20000 false)) = true /\
  sel_buf (cur_cmd (WarC.fragment 16 16 16 sample_storage
                      (sample_state 20000 false))) 20 = 100.
Proof.
  split; [reflexivity|].
  rewrite (tamper_buffer_all_offsets 16 16 16 sample_storage
             (sample_state 20000 false) eq_refl 20).
  vm_compute. reflexivity.
Defined.

